(** * Certificate validator of the app store

    A shallow embedding of [nextcloudappstore/certificate/validator.py]:
    the class [CertificateValidator] with its methods [validate_signature],
    [validate_certificate], [get_cn], [validate_app_id] and [_to_cert].

    The validator is a thin layer over three foreign libraries (pyOpenSSL,
    pem, base64).  Their code is not part of the repository, so they enter
    the development as an interface, [Library]: every call into them either
    returns a value or raises a Python exception.  What the validator does
    with those outcomes (which calls sit inside a [try], which exception is
    raised in their place, with which message) is translated from the
    source, statement by statement. *)

From Stdlib.Strings Require Import String Ascii Byte.
From Stdlib Require Import List Bool ZArith Lia.
Import ListNotations.
Open Scope string_scope.

(** ** Python values and exceptions *)

(** [bytes] objects. *)
Definition bytes := list byte.

(** An exception raised by library code: its class and what [str(e)]
    gives. *)
Record PyException := mkExc { exc_class : string; exc_str : string }.

(** What a call into a library does: raise or return. *)
Definition lib (A : Type) := sum PyException A.

(** The three exception classes the module declares (all subclasses of
    rest_framework's [ValidationError], built from one message), and
    library exceptions that leave a method as they are. *)
Inductive error :=
| InvalidSignatureException (detail : string)
| InvalidCertificateException (detail : string)
| CertificateAppIdMismatchException (detail : string)
| Unhandled (e : PyException).

(** Outcome of a method of the validator. *)
Inductive result (A : Type) :=
| Return (a : A)
| Raise (e : error).
Arguments Return {A} a.
Arguments Raise {A} e.

Definition bind {A B} (m : result A) (k : A -> result B) : result B :=
  match m with
  | Return a => k a
  | Raise e => Raise e
  end.

Definition lbind {A B} (m : lib A) (k : A -> lib B) : lib B :=
  match m with
  | inr a => k a
  | inl e => inl e
  end.

(** A library call outside any [try]: its exception propagates. *)
Definition foreign {A} (m : lib A) : result A :=
  match m with
  | inr a => Return a
  | inl e => Raise (Unhandled e)
  end.

(** [try: m  except Exception as e: raise h(e)]. *)
Definition try_except {A} (m : lib A) (h : PyException -> error) : result A :=
  match m with
  | inr a => Return a
  | inl e => Raise (h e)
  end.

Declare Scope py_scope.
Delimit Scope py_scope with py.
Notation "x <- m ;; k" := (bind m (fun x => k))
  (at level 61, m at next level, right associativity) : py_scope.
Notation "x <~ m ;; k" := (lbind m (fun x => k))
  (at level 61, m at next level, right associativity) : py_scope.
Open Scope py_scope.

(** [str(x)] inside an f-string, for a value that is a [str] or [None]. *)
Definition format_str (x : option string) : string :=
  match x with
  | Some s => s
  | None => "None"
  end.

(** [x == s] for [x] a [str] or [None] and [s] a [str]. *)
Definition py_eq (x : option string) (s : string) : bool :=
  match x with
  | Some t => String.eqb t s
  | None => false
  end.

(** [x in l] for a list of [str]. *)
Definition py_in (x : option string) (l : list string) : bool :=
  existsb (py_eq x) l.

(** The test [if x:] on a [str | None]: it passes on a non-empty [str],
    which is then in hand; [None] and the empty [str] are false. *)
Definition if_truthy (x : option string) : option string :=
  match x with
  | None => None
  | Some s => if String.eqb s EmptyString then None else Some s
  end.

(** ** The libraries *)

Inductive FILETYPE := FILETYPE_PEM | FILETYPE_ASN1 | FILETYPE_TEXT.

Inductive X509StoreFlags :=
| CRL_CHECK
| CRL_CHECK_ALL
| IGNORE_CRITICAL
| X509_STRICT
| ALLOW_PROXY_CERTS
| POLICY_CHECK
| EXPLICIT_POLICY
| INHIBIT_MAP
| CHECK_SS_SIGNATURE
| PARTIAL_CHAIN.

(** [OpenSSL.crypto.X509Store]: the certificates added, the flags set and
    the revocation lists added, each in the order of the calls. *)
Record X509Store (cert crl : Type) := mkStore {
  store_certs : list cert;
  store_flags : list X509StoreFlags;
  store_crls : list crl
}.
Arguments mkStore {cert crl}.
Arguments store_certs {cert crl}.
Arguments store_flags {cert crl}.
Arguments store_crls {cert crl}.

(** [X509Store()] *)
Definition new_store {cert crl} : X509Store cert crl := mkStore [] [] [].

(** [store.add_cert(c)] *)
Definition add_cert {cert crl} (s : X509Store cert crl) (c : cert) :=
  mkStore (store_certs s ++ [c]) (store_flags s) (store_crls s).

(** [store.set_flags(f)] *)
Definition set_flags {cert crl} (s : X509Store cert crl) (f : X509StoreFlags) :=
  mkStore (store_certs s) (store_flags s ++ [f]) (store_crls s).

(** [store.add_crl(r)] *)
Definition add_crl {cert crl} (s : X509Store cert crl) (r : crl) :=
  mkStore (store_certs s) (store_flags s) (store_crls s ++ [r]).

(** [OpenSSL.crypto.X509StoreContext(store, cert)] *)
Record X509StoreContext (cert crl : Type) := mkCtx {
  ctx_store : X509Store cert crl;
  ctx_cert : cert
}.
Arguments mkCtx {cert crl}.
Arguments ctx_store {cert crl}.
Arguments ctx_cert {cert crl}.

(** The foreign functions the module imports, with the accessors of their
    objects that the properties below speak about. *)
Record Library := mkLibrary {
  X509 : Type;
  CRL : Type;
  PKey : Type;
  PemObject : Type;
  (** [s.encode()] *)
  str_encode : string -> lib bytes;
  (** [pem.parse(b)] and [str(block)] *)
  pem_parse : bytes -> lib (list PemObject);
  pem_str : PemObject -> string;
  (** [base64.b64decode(b)] *)
  b64decode : bytes -> lib bytes;
  (** [OpenSSL.crypto]: [load_certificate], [load_crl], [verify],
      [X509StoreContext.verify_certificate] *)
  load_certificate : FILETYPE -> bytes -> lib X509;
  load_crl : FILETYPE -> string -> lib CRL;
  verify : X509 -> bytes -> bytes -> string -> lib unit;
  verify_certificate : X509StoreContext X509 CRL -> lib unit;
  (** [cert.get_subject().CN], [None] when the subject has no CN *)
  subject_CN : X509 -> option string;
  (** [cert.get_pubkey()], [cert.get_serial_number()], [cert.has_expired()] *)
  get_pubkey : X509 -> PKey;
  get_serial_number : X509 -> Z;
  has_expired : X509 -> bool;
  (** serial numbers of [crl.get_revoked()] *)
  get_revoked : CRL -> list Z
}.

(** ** Configuration *)

(** [django.conf.settings], as far as the module reads it.
    [MASTER_CERTIFICATE_CNS] may be missing. *)
Record Settings := mkSettings {
  CERTIFICATE_DIGEST : string;
  MASTER_CERTIFICATE_CNS : option (list string)
}.

Record CertificateConfiguration := mkConfig { digest : string }.

Definition CertificateConfiguration_init (settings : Settings) :=
  mkConfig (CERTIFICATE_DIGEST settings).

Record CertificateValidator := mkValidator { config : CertificateConfiguration }.

(** [getattr(settings, 'MASTER_CERTIFICATE_CNS', [])] *)
Definition master_cns_of (settings : Settings) : list string :=
  match MASTER_CERTIFICATE_CNS settings with
  | Some l => l
  | None => []
  end.

(** ** The validator *)

Section Validator.

Variable L : Library.
Variable settings : Settings.

(** [_to_cert]: [load_certificate(FILETYPE_PEM, certificate.encode())]
    inside a [try]; whatever it raises is raised again as
    [InvalidCertificateException], the message built by
    ["{}: {}".format("Invalid certificate", str(e))]. *)
Definition _to_cert (self : CertificateValidator) (certificate : string)
  : result (X509 L) :=
  try_except
    (b <~ str_encode L certificate ;;
     load_certificate L FILETYPE_PEM b)
    (fun e =>
       let msg := "Invalid certificate" ++ ": " ++ exc_str e in
       InvalidCertificateException msg).

(** [validate_signature]: the certificate is parsed before the [try];
    [signature.encode()], [b64decode] and [verify] are evaluated inside it,
    in this order. *)
Definition validate_signature (self : CertificateValidator)
    (certificate signature : string) (data : bytes) : result unit :=
  cert <- _to_cert self certificate ;;
  let err_msg := "Signature is invalid" in
  try_except
    (sig_b <~ str_encode L signature ;;
     raw <~ b64decode L sig_b ;;
     verify L cert raw data (digest (config self)))
    (fun e => InvalidSignatureException (err_msg ++ ": " ++ exc_str e)).

(** [for ca in cas: store.add_cert(self._to_cert(str(ca)))] *)
Fixpoint add_cas (self : CertificateValidator) (cas : list (PemObject L))
    (store : X509Store (X509 L) (CRL L)) : result (X509Store (X509 L) (CRL L)) :=
  match cas with
  | [] => Return store
  | ca :: rest =>
      c <- _to_cert self (pem_str L ca) ;;
      add_cas self rest (add_cert store c)
  end.

(** [validate_certificate]: [crl] is [None] by default.  Only
    [ctx.verify_certificate()] is inside the [try]; [chain.encode()],
    [pem.parse], the loop over the chain, the parsing of the leaf and
    [load_crl] come before it. *)
Definition validate_certificate (self : CertificateValidator)
    (certificate chain : string) (crl : option string) : result unit :=
  (* root and intermediary certificate need to be split *)
  chain_b <- foreign (str_encode L chain) ;;
  cas <- foreign (pem_parse L chain_b) ;;
  let store := new_store in
  store <- add_cas self cas store ;;
  cert <- _to_cert self certificate ;;
  store <- match if_truthy crl with
           | Some crl =>
               parsed_crl <- foreign (load_crl L FILETYPE_PEM crl) ;;
               let store := set_flags store CRL_CHECK in
               Return (add_crl store parsed_crl)
           | None => Return store
           end ;;
  let ctx := mkCtx store cert in
  let err_msg := "Certificate is invalid" in
  try_except
    (verify_certificate L ctx)
    (fun e => InvalidCertificateException (err_msg ++ ": " ++ exc_str e)).

(** The statements of [validate_certificate] before its [try], on their
    own: the store context that path validation is run on. *)
Definition build_context (self : CertificateValidator)
    (certificate chain : string) (crl : option string)
  : result (X509StoreContext (X509 L) (CRL L)) :=
  chain_b <- foreign (str_encode L chain) ;;
  cas <- foreign (pem_parse L chain_b) ;;
  store <- add_cas self cas new_store ;;
  cert <- _to_cert self certificate ;;
  store <- match if_truthy crl with
           | Some crl =>
               parsed_crl <- foreign (load_crl L FILETYPE_PEM crl) ;;
               Return (add_crl (set_flags store CRL_CHECK) parsed_crl)
           | None => Return store
           end ;;
  Return (mkCtx store cert).

(** [get_cn]: [cert.get_subject().CN], a [str], or [None] for a subject
    without CN. *)
Definition get_cn (self : CertificateValidator) (certificate : string)
  : result (option string) :=
  cert <- _to_cert self certificate ;;
  Return (subject_CN L cert).

(** [validate_app_id]: two early returns, then the exception. *)
Definition validate_app_id (self : CertificateValidator)
    (certificate app_id : string) : result unit :=
  cn <- get_cn self certificate ;;
  let master_cns := master_cns_of settings in
  if py_eq cn app_id then Return tt
  else if py_in cn master_cns then Return tt
  else
    let msg := "App id " ++ app_id ++ " does not match cert CN " ++ format_str cn in
    Raise (CertificateAppIdMismatchException msg).

End Validator.

(** ** What the properties assume of the libraries

    Each is a documented behaviour of OpenSSL's path validation or of
    pyOpenSSL's [verify]; a theorem names the ones it needs. *)

(** A certificate past its not-after date never validates. *)
Definition rejects_expired (L : Library) : Prop :=
  forall (store : X509Store (X509 L) (CRL L)) (c : X509 L),
    has_expired L c = true ->
    exists e, verify_certificate L (mkCtx store c) = inl e.

(** With no trust anchor in the store, nothing validates. *)
Definition rejects_empty_store (L : Library) : Prop :=
  forall (store : X509Store (X509 L) (CRL L)) (c : X509 L),
    store_certs store = [] ->
    exists e, verify_certificate L (mkCtx store c) = inl e.

(** With [CRL_CHECK] set and one revocation list in the store, a
    certificate whose serial number is on that list never validates. *)
Definition rejects_revoked (L : Library) : Prop :=
  forall (store : X509Store (X509 L) (CRL L)) (c : X509 L) (r : CRL L),
    In CRL_CHECK (store_flags store) ->
    store_crls store = [r] ->
    In (get_serial_number L c) (get_revoked L r) ->
    exists e, verify_certificate L (mkCtx store c) = inl e.

(** [verify] reads nothing of the certificate but its public key. *)
Definition verify_reads_pubkey_only (L : Library) : Prop :=
  forall (c1 c2 : X509 L) (sig data : bytes) (dgst : string),
    get_pubkey L c1 = get_pubkey L c2 ->
    verify L c1 sig data dgst = verify L c2 sig data dgst.

(** The same libraries with another [load_crl]. *)
Definition with_load_crl (L : Library)
    (f : FILETYPE -> string -> lib (CRL L)) : Library :=
  mkLibrary (X509 L) (CRL L) (PKey L) (PemObject L)
    (str_encode L) (pem_parse L) (pem_str L) (b64decode L)
    (load_certificate L) f (verify L) (verify_certificate L)
    (subject_CN L) (get_pubkey L) (get_serial_number L) (has_expired L)
    (get_revoked L).

(** What parsing a certificate text does in the libraries:
    [load_certificate(FILETYPE_PEM, certificate.encode())]. *)
Definition parse_certificate (L : Library) (certificate : string) : lib (X509 L) :=
  b <~ str_encode L certificate ;; load_certificate L FILETYPE_PEM b.

(** What [verify(cert, b64decode(signature.encode()), data, digest)] does
    in the libraries. *)
Definition decode_signature (L : Library) (signature : string) : lib bytes :=
  sig_b <~ str_encode L signature ;; b64decode L sig_b.

(** The expected identifier matches: it is the CN, or the CN is on the
    master list. *)
Definition id_matches (settings : Settings) (cn : option string) (app_id : string) : Prop :=
  cn = Some app_id \/ exists s, cn = Some s /\ In s (master_cns_of settings).

(** The blocks [cas] of a chain parse, one by one and in order, to the
    certificates [cs]. *)
Definition anchors_parse (L : Library) (cas : list (PemObject L))
    (cs : list (X509 L)) : Prop :=
  Forall2 (fun ca c => parse_certificate L (pem_str L ca) = inr c) cas cs.

(** What the CRL argument leaves on a store: nothing when it is [None] or
    empty, else [CRL_CHECK] and the one list it parses to. *)
Definition revocation_setup (L : Library) (crl : option string)
    (flags : list X509StoreFlags) (crls : list (CRL L)) : Prop :=
  match if_truthy crl with
  | None => flags = [] /\ crls = []
  | Some t =>
      exists r, load_crl L FILETYPE_PEM t = inr r
                /\ flags = [CRL_CHECK] /\ crls = [r]
  end.

(** ** A small executable library

    A stand-in for the libraries that computes: certificates are records
    looked up by the body of their PEM block, path validation follows one
    issuer link, and a "signature" is the signer's key followed by the
    data.  It serves to run the validator on concrete texts; the theorems
    hold for every [Library]. *)

Module Ref.

Record cert := mkCert {
  cert_cn : option string;
  cert_serial : Z;
  cert_subject : string;
  cert_issuer : string;
  cert_not_before : Z;
  cert_not_after : Z;
  cert_key : byte;
  cert_signer : byte
}.

Record crl := mkCrl {
  crl_issuer : string;
  crl_revoked : list Z
}.

(** The clock, in seconds since the epoch. *)
Definition now : Z := 1700000000.

Definition nl : string := String "010"%char EmptyString.

Fixpoint lines_from (cur s : string) : list string :=
  match s with
  | EmptyString => [cur]
  | String c rest =>
      if Ascii.eqb c "010"%char then cur :: lines_from EmptyString rest
      else lines_from (cur ++ String c EmptyString) rest
  end.

Definition lines (s : string) : list string := lines_from EmptyString s.

Definition unlines (ls : list string) : string :=
  fold_right (fun l acc => l ++ nl ++ acc) EmptyString ls.

(** The bodies of the blocks between a [b] line and an [e] line. *)
Fixpoint blocks (b e : string) (cur : option (list string)) (ls : list string)
  : list (list string) :=
  match ls with
  | [] => []
  | l :: rest =>
      match cur with
      | None =>
          if String.eqb l b then blocks b e (Some []) rest
          else blocks b e None rest
      | Some body =>
          if String.eqb l e then rev body :: blocks b e None rest
          else blocks b e (Some (l :: body)) rest
      end
  end.

Definition BEGIN_CERT := "-----BEGIN CERTIFICATE-----".
Definition END_CERT := "-----END CERTIFICATE-----".
Definition BEGIN_CRL := "-----BEGIN X509 CRL-----".
Definition END_CRL := "-----END X509 CRL-----".

Definition cert_blocks (s : string) : list (list string) :=
  blocks BEGIN_CERT END_CERT None (lines s).

Definition crl_blocks (s : string) : list (list string) :=
  blocks BEGIN_CRL END_CRL None (lines s).

Definition armour (b e : string) (body : list string) : string :=
  unlines (b :: body ++ [e]).

Fixpoint lookup {A} (k : string) (t : list (string * A)) : option A :=
  match t with
  | [] => None
  | (k', v) :: rest => if String.eqb k k' then Some v else lookup k rest
  end.

(** The certificates and the revocation list that exist. *)
Definition root_ca : cert :=
  mkCert (Some "Nextcloud Root Authority") 1 "root" "root" 1400000000 2000000000 x01 x01.
Definition news : cert :=
  mkCert (Some "news") 4097 "news" "root" 1600000000 1900000000 x02 x01.
Definition news_old : cert :=
  mkCert (Some "news") 4001 "news" "root" 1500000000 1600000000 x02 x01.
Definition slash_news : cert :=
  mkCert (Some "/news") 4098 "/news" "root" 1600000000 1900000000 x03 x01.
Definition core : cert :=
  mkCert (Some "core") 4099 "core" "root" 1600000000 1900000000 x04 x01.
Definition anonymous : cert :=
  mkCert None 4100 EmptyString "root" 1600000000 1900000000 x05 x01.

Definition known_certs : list (string * cert) :=
  [("MIIBroot", root_ca); ("MIIBnews", news); ("MIIBnewsold", news_old);
   ("MIIBslash", slash_news); ("MIIBcore", core); ("MIIBanon", anonymous)].

Definition root_crl : crl := mkCrl "root" [4097%Z].

Definition known_crls : list (string * crl) := [("MIIBcrl", root_crl)].

Definition pem_of (body : string) : string := armour BEGIN_CERT END_CERT [body].
Definition crl_pem_of (body : string) : string := armour BEGIN_CRL END_CRL [body].

Definition root_pem := pem_of "MIIBroot".
Definition news_pem := pem_of "MIIBnews".
Definition news_old_pem := pem_of "MIIBnewsold".
Definition slash_pem := pem_of "MIIBslash".
Definition core_pem := pem_of "MIIBcore".
Definition anon_pem := pem_of "MIIBanon".
Definition root_crl_pem := crl_pem_of "MIIBcrl".

Definition crypto_error (reason : string) : PyException :=
  mkExc "OpenSSL.crypto.Error" reason.

Definition ref_encode (s : string) : lib bytes := inr (list_byte_of_string s).

Definition ref_pem_parse (b : bytes) : lib (list string) :=
  inr (map (armour BEGIN_CERT END_CERT) (cert_blocks (string_of_list_byte b))).

Definition ref_load_certificate (t : FILETYPE) (b : bytes) : lib cert :=
  match t with
  | FILETYPE_PEM =>
      match cert_blocks (string_of_list_byte b) with
      | [] => inl (crypto_error "[('PEM routines', '', 'no start line')]")
      | body :: _ =>
          match lookup (String.concat EmptyString body) known_certs with
          | Some c => inr c
          | None => inl (crypto_error "[('asn1 encoding routines', '', 'not enough data')]")
          end
      end
  | _ => inl (crypto_error "[('asn1 encoding routines', '', 'wrong tag')]")
  end.

Definition ref_load_crl (t : FILETYPE) (s : string) : lib crl :=
  match t with
  | FILETYPE_PEM =>
      match crl_blocks s with
      | [] => inl (crypto_error "[('PEM routines', '', 'no start line')]")
      | body :: _ =>
          match lookup (String.concat EmptyString body) known_crls with
          | Some r => inr r
          | None => inl (crypto_error "[('asn1 encoding routines', '', 'not enough data')]")
          end
      end
  | _ => inl (crypto_error "[('asn1 encoding routines', '', 'wrong tag')]")
  end.

(** Base64: characters outside the alphabet are dropped, the padding must
    complete the last group. *)
Definition b64_value (c : byte) : option N :=
  let n := Byte.to_N c in
  (if (65 <=? n) && (n <=? 90) then Some (n - 65)
   else if (97 <=? n) && (n <=? 122) then Some (n - 71)
   else if (48 <=? n) && (n <=? 57) then Some (n + 4)
   else if n =? 43 then Some 62
   else if n =? 47 then Some 63
   else None)%N.

Fixpoint sextets (b : bytes) : list N :=
  match b with
  | [] => []
  | c :: rest =>
      match b64_value c with
      | Some v => v :: sextets rest
      | None => sextets rest
      end
  end.

Definition pads (b : bytes) : nat :=
  length (filter (fun c => (Byte.to_N c =? 61)%N) b).

Definition byte_of_N (n : N) : byte :=
  match Byte.of_N n with
  | Some b => b
  | None => x00
  end.

Fixpoint octets (l : list N) : bytes :=
  match l with
  | a :: b :: c :: d :: rest =>
      let w := a * 262144 + b * 4096 + c * 64 + d in
      byte_of_N (w / 65536) :: byte_of_N ((w / 256) mod 256)
        :: byte_of_N (w mod 256) :: octets rest
  | [a; b; c] =>
      let w := a * 4096 + b * 64 + c in
      [byte_of_N (w / 1024); byte_of_N ((w / 4) mod 256)]
  | [a; b] => [byte_of_N ((a * 64 + b) / 16)]
  | _ => []
  end%N.

Definition binascii_error (reason : string) : PyException :=
  mkExc "binascii.Error" reason.

Definition ref_b64decode (b : bytes) : lib bytes :=
  let ds := sextets b in
  match Nat.modulo (length ds) 4 with
  | 0 => inr (octets ds)
  | 1 => inl (binascii_error "Invalid base64-encoded string")
  | 2 => if Nat.leb 2 (pads b) then inr (octets ds)
         else inl (binascii_error "Incorrect padding")
  | _ => if Nat.leb 1 (pads b) then inr (octets ds)
         else inl (binascii_error "Incorrect padding")
  end.

Definition known_digests : list string := ["sha1"; "sha256"; "sha384"; "sha512"].

Definition bytes_eqb (a b : bytes) : bool :=
  if list_eq_dec Byte.byte_eq_dec a b then true else false.

(** The signature of [data] under the key [k]. *)
Definition sign (k : byte) (data : bytes) : bytes := k :: data.

Definition ref_verify (c : cert) (sig data : bytes) (dgst : string) : lib unit :=
  if existsb (String.eqb dgst) known_digests then
    if bytes_eqb sig (sign (cert_key c) data) then inr tt
    else inl (crypto_error "[('rsa routines', '', 'bad signature')]")
  else inl (mkExc "ValueError" "No such digest method").

Definition is_crl_check (f : X509StoreFlags) : bool :=
  match f with
  | CRL_CHECK => true
  | _ => false
  end.

Definition issued (c anchor : cert) : bool :=
  String.eqb (cert_subject anchor) (cert_issuer c)
  && Byte.eqb (cert_key anchor) (cert_signer c).

Definition in_period (c : cert) : bool :=
  (cert_not_before c <=? now)%Z && (now <=? cert_not_after c)%Z.

Definition ref_has_expired (c : cert) : bool := (cert_not_after c <? now)%Z.

Definition verification_error (reason : string) : PyException :=
  mkExc "OpenSSL.crypto.X509StoreContextError" reason.

(** Path validation: validity period, an issuer among the anchors, and
    with [CRL_CHECK] a revocation list of the issuer that does not name the
    certificate. *)
Definition ref_verify_certificate (ctx : X509StoreContext cert crl) : lib unit :=
  let s := ctx_store ctx in
  let c := ctx_cert ctx in
  if ref_has_expired c then inl (verification_error "certificate has expired")
  else if negb (in_period c) then inl (verification_error "certificate is not yet valid")
  else if negb (existsb (fun a => issued c a && in_period a) (store_certs s)) then
    inl (verification_error "unable to get local issuer certificate")
  else if existsb is_crl_check (store_flags s) then
    match filter (fun r => String.eqb (crl_issuer r) (cert_issuer c)) (store_crls s) with
    | [] => inl (verification_error "unable to get certificate CRL")
    | rs =>
        if existsb (fun r => existsb (Z.eqb (cert_serial c)) (crl_revoked r)) rs
        then inl (verification_error "certificate revoked")
        else inr tt
    end
  else inr tt.

Definition library : Library :=
  mkLibrary cert crl byte string
    ref_encode ref_pem_parse (fun s => s) ref_b64decode
    ref_load_certificate ref_load_crl ref_verify ref_verify_certificate
    cert_cn cert_key cert_serial ref_has_expired crl_revoked.

(** Settings and the validator built from them. *)
Definition settings : Settings := mkSettings "sha512" (Some ["core"]).
Definition bare_settings : Settings := mkSettings "sha512" None.

Definition validator : CertificateValidator :=
  mkValidator (CertificateConfiguration_init settings).

(** [b"hello world"] and its signature under the key of [news], base64. *)
Definition hello : bytes := list_byte_of_string "hello world".
Definition hello_sig : string := "AmhlbGxvIHdvcmxk".

End Ref.

(** * Properties *)

(** ** Python values *)

Lemma py_eq_true (x : option string) (s : string) :
  py_eq x s = true <-> x = Some s.
Proof.
  destruct x as [t|]; simpl.
  - rewrite String.eqb_eq. split; [intros ->; reflexivity | congruence].
  - split; discriminate.
Qed.

Lemma py_in_true (x : option string) (l : list string) :
  py_in x l = true <-> exists s, x = Some s /\ In s l.
Proof.
  unfold py_in. rewrite existsb_exists. split.
  - intros [s [Hin Heq]]. apply py_eq_true in Heq. eauto.
  - intros [s [Heq Hin]]. exists s. split; [assumption | now apply py_eq_true].
Qed.

Lemma if_truthy_Some (x : option string) (t : string) :
  if_truthy x = Some t <-> x = Some t /\ t <> EmptyString.
Proof.
  destruct x as [s|]; simpl.
  - destruct (String.eqb_spec s EmptyString) as [-> | Hne].
    + split; [discriminate | intros [[= <-] Hne]; now elim Hne].
    + split; [intros [= <-]; auto | intros [[= <-] _]; reflexivity].
  - split; [discriminate | intros [[=] _]].
Qed.

Lemma if_truthy_nonempty (t : string) : t <> EmptyString -> if_truthy (Some t) = Some t.
Proof. intros Hne. now apply if_truthy_Some. Qed.

Lemma id_matches_dec (settings : Settings) (cn : option string) (app_id : string) :
  py_eq cn app_id || py_in cn (master_cns_of settings) = true
  <-> id_matches settings cn app_id.
Proof.
  unfold id_matches. rewrite orb_true_iff, py_eq_true, py_in_true. reflexivity.
Qed.

Section Properties.

Variable L : Library.
Variable settings : Settings.
Variable self : CertificateValidator.

(** ** Parsing a certificate *)

Lemma _to_cert_Return (certificate : string) (c : X509 L) :
  _to_cert L self certificate = Return c <-> parse_certificate L certificate = inr c.
Proof.
  unfold _to_cert. fold (parse_certificate L certificate).
  destruct (parse_certificate L certificate); simpl; split; congruence.
Qed.

Lemma _to_cert_Raise (certificate : string) (e : PyException) :
  parse_certificate L certificate = inl e ->
  _to_cert L self certificate =
    Raise (InvalidCertificateException ("Invalid certificate: " ++ exc_str e)).
Proof.
  intros H. unfold _to_cert. fold (parse_certificate L certificate).
  rewrite H. reflexivity.
Qed.

Lemma _to_cert_cases (certificate : string) :
  (exists c, _to_cert L self certificate = Return c)
  \/ (exists e, parse_certificate L certificate = inl e
             /\ _to_cert L self certificate =
                  Raise (InvalidCertificateException ("Invalid certificate: " ++ exc_str e))).
Proof.
  destruct (parse_certificate L certificate) as [e | c] eqn:H.
  - right. exists e. split; [reflexivity | now apply _to_cert_Raise].
  - left. exists c. now apply _to_cert_Return.
Qed.

(** ** The store *)

(** The loop over the chain either adds a certificate per block, in order,
    and touches neither flags nor revocation lists, or stops at the first
    block that is no certificate. *)
Lemma add_cas_cases (cas : list (PemObject L)) (store : X509Store (X509 L) (CRL L)) :
  (exists cs, add_cas L self cas store =
                Return (mkStore (store_certs store ++ cs) (store_flags store) (store_crls store))
              /\ Forall2 (fun ca c => _to_cert L self (pem_str L ca) = Return c) cas cs)
  \/ (exists e, add_cas L self cas store =
                  Raise (InvalidCertificateException ("Invalid certificate: " ++ exc_str e))).
Proof.
  revert store. induction cas as [| ca rest IH]; intros store; simpl.
  - left. exists []. rewrite app_nil_r. destruct store; auto.
  - destruct (_to_cert_cases (pem_str L ca)) as [[c Hc] | [e [_ He]]].
    + rewrite Hc. simpl.
      destruct (IH (add_cert store c)) as [[cs [Hcs Hall]] | [e He]].
      * left. exists (c :: cs). rewrite Hcs. simpl.
        rewrite <- app_assoc. simpl. auto.
      * right. exists e. exact He.
    + right. exists e. rewrite He. reflexivity.
Qed.

Lemma add_cas_nil (store : X509Store (X509 L) (CRL L)) :
  add_cas L self [] store = Return store.
Proof. reflexivity. Qed.

(** [validate_certificate] is: build the context, then verify inside the
    [try]. *)
Lemma validate_certificate_eq (certificate chain : string) (crl : option string) :
  validate_certificate L self certificate chain crl =
    (ctx <- build_context L self certificate chain crl ;;
     try_except
       (verify_certificate L ctx)
       (fun e => InvalidCertificateException ("Certificate is invalid: " ++ exc_str e))).
Proof.
  unfold validate_certificate, build_context.
  destruct (str_encode L chain) as [|cb]; simpl; [reflexivity|].
  destruct (pem_parse L cb) as [|cas]; simpl; [reflexivity|].
  destruct (add_cas L self cas new_store) as [store|]; simpl; [|reflexivity].
  destruct (_to_cert L self certificate) as [c|]; simpl; [|reflexivity].
  destruct (if_truthy crl) as [t|]; simpl; [|reflexivity].
  destruct (load_crl L FILETYPE_PEM t); reflexivity.
Qed.

(** A context that was built holds the parsed leaf. *)
Lemma build_context_cert (certificate chain : string) (crl : option string)
    (ctx : X509StoreContext (X509 L) (CRL L)) :
  build_context L self certificate chain crl = Return ctx ->
  _to_cert L self certificate = Return (ctx_cert ctx).
Proof.
  unfold build_context.
  destruct (str_encode L chain) as [|cb]; simpl; [discriminate|].
  destruct (pem_parse L cb) as [|cas]; simpl; [discriminate|].
  destruct (add_cas L self cas new_store) as [store|]; simpl; [|discriminate].
  destruct (_to_cert L self certificate) as [c|]; simpl; [|discriminate].
  destruct (if_truthy crl) as [t|]; simpl.
  - destruct (load_crl L FILETYPE_PEM t); simpl; [discriminate|].
    intros [= <-]. reflexivity.
  - intros [= <-]. reflexivity.
Qed.

(** Without a CRL (or with an empty one) the store carries no flag and no
    revocation list. *)
Lemma build_context_plain (certificate chain : string) (crl : option string)
    (ctx : X509StoreContext (X509 L) (CRL L)) :
  if_truthy crl = None ->
  build_context L self certificate chain crl = Return ctx ->
  store_flags (ctx_store ctx) = [] /\ store_crls (ctx_store ctx) = [].
Proof.
  intros Hcrl. unfold build_context. rewrite Hcrl.
  destruct (str_encode L chain) as [|cb]; simpl; [discriminate|].
  destruct (pem_parse L cb) as [|cas]; simpl; [discriminate|].
  destruct (add_cas_cases cas new_store) as [[cs [-> _]] | [e ->]]; simpl; [|discriminate].
  destruct (_to_cert L self certificate) as [c|]; simpl; [|discriminate].
  intros [= <-]. simpl. auto.
Qed.

(** With a CRL that parses, the context is the one built without it, with
    [CRL_CHECK] set and the list added. *)
Lemma build_context_with_crl (certificate chain t : string) (r : CRL L)
    (ctx : X509StoreContext (X509 L) (CRL L)) :
  t <> EmptyString ->
  load_crl L FILETYPE_PEM t = inr r ->
  build_context L self certificate chain None = Return ctx ->
  build_context L self certificate chain (Some t) =
    Return (mkCtx (add_crl (set_flags (ctx_store ctx) CRL_CHECK) r) (ctx_cert ctx)).
Proof.
  intros Hne Hr. unfold build_context. rewrite (if_truthy_nonempty t Hne). simpl.
  destruct (str_encode L chain) as [|cb]; simpl; [discriminate|].
  destruct (pem_parse L cb) as [|cas]; simpl; [discriminate|].
  destruct (add_cas L self cas new_store) as [store|]; simpl; [|discriminate].
  destruct (_to_cert L self certificate) as [c|]; simpl; [|discriminate].
  rewrite Hr. simpl. intros [= <-]. reflexivity.
Qed.

(** When the chain text is read and split, whatever stops the construction
    of the context is an [InvalidCertificateException] of [_to_cert], unless
    it is the CRL. *)
Lemma build_context_cases (certificate chain : string) (crl : option string)
    (cb : bytes) (cas : list (PemObject L)) :
  str_encode L chain = inr cb ->
  pem_parse L cb = inr cas ->
  (forall t, if_truthy crl = Some t -> exists r, load_crl L FILETYPE_PEM t = inr r) ->
  (exists ctx, build_context L self certificate chain crl = Return ctx
               /\ Forall2 (fun ca c => _to_cert L self (pem_str L ca) = Return c)
                    cas (store_certs (ctx_store ctx)))
  \/ (exists e, build_context L self certificate chain crl =
                  Raise (InvalidCertificateException ("Invalid certificate: " ++ exc_str e))).
Proof.
  intros Hcb Hcas Hcrl. unfold build_context. rewrite Hcb. simpl. rewrite Hcas. simpl.
  destruct (add_cas_cases cas new_store) as [[cs [-> Hall]] | [e ->]]; simpl.
  - destruct (_to_cert_cases certificate) as [[c ->] | [e [_ ->]]]; simpl.
    + destruct (if_truthy crl) as [t|] eqn:Ht.
      * destruct (Hcrl t eq_refl) as [r ->]. simpl.
        left. eexists. split; [reflexivity | exact Hall].
      * simpl. left. eexists. split; [reflexivity | exact Hall].
    + right. exists e. reflexivity.
  - right. exists e. reflexivity.
Qed.

(** A context built with a CRL is one built without, plus the flag and the
    list. *)
Lemma build_context_with_crl_inv (certificate chain t : string) (r : CRL L)
    (ctx' : X509StoreContext (X509 L) (CRL L)) :
  t <> EmptyString ->
  load_crl L FILETYPE_PEM t = inr r ->
  build_context L self certificate chain (Some t) = Return ctx' ->
  exists ctx,
    build_context L self certificate chain None = Return ctx
    /\ ctx' = mkCtx (add_crl (set_flags (ctx_store ctx) CRL_CHECK) r) (ctx_cert ctx).
Proof.
  intros Hne Hr. unfold build_context. rewrite (if_truthy_nonempty t Hne). simpl.
  destruct (str_encode L chain) as [|cb]; simpl; [discriminate|].
  destruct (pem_parse L cb) as [|cas]; simpl; [discriminate|].
  destruct (add_cas L self cas new_store) as [store|]; simpl; [|discriminate].
  destruct (_to_cert L self certificate) as [c|]; simpl; [|discriminate].
  rewrite Hr. simpl. intros [= <-]. eexists. split; reflexivity.
Qed.

(** ** Identity *)

(** C7: for a certificate text that parses, [get_cn] returns the subject
    CN of the parsed certificate as it is, with nothing normalised or
    trimmed: a CN that starts with a slash comes back with its slash. *)
Theorem get_cn_verbatim (certificate : string) (c : X509 L) :
  _to_cert L self certificate = Return c ->
  get_cn L self certificate = Return (subject_CN L c)
  /\ (forall s, subject_CN L c = Some ("/" ++ s) ->
                get_cn L self certificate = Return (Some ("/" ++ s))).
Proof.
  intros Hc. unfold get_cn. rewrite Hc. simpl. split.
  - reflexivity.
  - intros s ->. reflexivity.
Qed.

(** C1: [validate_app_id] succeeds exactly when the certificate text parses
    and the subject CN it carries equals the expected identifier, character
    for character, or is on the master list; when a CN was extracted and
    neither holds, it raises [CertificateAppIdMismatchException] with the
    message "App id <app_id> does not match cert CN <cn>", and that is the
    only way this exception arises. *)
Theorem validate_app_id_spec (certificate app_id : string) :
  (validate_app_id L settings self certificate app_id = Return tt
   <-> exists c, _to_cert L self certificate = Return c
              /\ id_matches settings (subject_CN L c) app_id)
  /\ (forall c, _to_cert L self certificate = Return c ->
        (~ id_matches settings (subject_CN L c) app_id
         <-> validate_app_id L settings self certificate app_id =
               Raise (CertificateAppIdMismatchException
                        ("App id " ++ app_id ++ " does not match cert CN "
                           ++ format_str (subject_CN L c))))).
Proof.
  unfold validate_app_id, get_cn.
  destruct (_to_cert L self certificate) as [c | e] eqn:Hc; simpl.
  - pose proof (id_matches_dec settings (subject_CN L c) app_id) as Hdec.
    destruct (py_eq (subject_CN L c) app_id) eqn:Heq;
      [| destruct (py_in (subject_CN L c) (master_cns_of settings)) eqn:Hin];
      simpl in Hdec.
    + split.
      * split; [intros _; exists c; split; [reflexivity | now apply Hdec] | reflexivity].
      * intros c' [= <-]. split; [intros Hn; elim Hn; now apply Hdec | discriminate].
    + split.
      * split; [intros _; exists c; split; [reflexivity | now apply Hdec] | reflexivity].
      * intros c' [= <-]. split; [intros Hn; elim Hn; now apply Hdec | discriminate].
    + split.
      * split; [discriminate |].
        intros [c' [[= <-] Hm]]. apply Hdec in Hm. discriminate.
      * intros c' [= <-]. split; [reflexivity |].
        intros _ Hm. apply Hdec in Hm. discriminate.
  - split.
    + split; [discriminate | intros [c [[=] _]]].
    + intros c [=].
Qed.

(** ** Certificate parsing *)

(** C8: when the libraries reject a certificate text (at [encode] or at
    [load_certificate]) with cause [e], [_to_cert] raises
    [InvalidCertificateException] with "Invalid certificate: <str(e)>", and
    so do [get_cn], [validate_app_id] and [validate_signature];
    [validate_certificate], once the chain text is read and split, raises
    an [InvalidCertificateException] of that form (for the first text that
    does not parse, a chain block or the leaf), and exactly this one when
    the chain's blocks all parse.  Nothing escapes as a library exception. *)
Theorem to_cert_failure (certificate : string) (e : PyException) :
  parse_certificate L certificate = inl e ->
  _to_cert L self certificate =
    Raise (InvalidCertificateException ("Invalid certificate: " ++ exc_str e))
  /\ get_cn L self certificate =
       Raise (InvalidCertificateException ("Invalid certificate: " ++ exc_str e))
  /\ (forall app_id, validate_app_id L settings self certificate app_id =
       Raise (InvalidCertificateException ("Invalid certificate: " ++ exc_str e)))
  /\ (forall signature data, validate_signature L self certificate signature data =
       Raise (InvalidCertificateException ("Invalid certificate: " ++ exc_str e)))
  /\ (forall chain crl cb cas,
        str_encode L chain = inr cb -> pem_parse L cb = inr cas ->
        (exists e', validate_certificate L self certificate chain crl =
           Raise (InvalidCertificateException ("Invalid certificate: " ++ exc_str e')))
        /\ (forall store, add_cas L self cas new_store = Return store ->
              validate_certificate L self certificate chain crl =
                Raise (InvalidCertificateException ("Invalid certificate: " ++ exc_str e)))).
Proof.
  intros He. pose proof (_to_cert_Raise certificate e He) as Hc.
  split; [exact Hc |].
  split; [unfold get_cn; rewrite Hc; reflexivity |].
  split; [intros app_id; unfold validate_app_id, get_cn; rewrite Hc; reflexivity |].
  split; [intros signature data; unfold validate_signature; rewrite Hc; reflexivity |].
  intros chain crl cb cas Hcb Hcas.
  rewrite validate_certificate_eq. unfold build_context. rewrite Hcb. simpl. rewrite Hcas. simpl.
  split.
  - destruct (add_cas_cases cas new_store) as [[cs [-> _]] | [e' ->]]; simpl.
    + rewrite Hc. simpl. exists e. reflexivity.
    + exists e'. reflexivity.
  - intros store ->. simpl. rewrite Hc. reflexivity.
Qed.

(** ** Signatures *)

(** C5: [validate_signature] looks at no store, no chain and no date.  For
    two certificate texts that parse to certificates with the same public
    key (whatever their validity periods and issuers) and two signature
    strings that decode to the same bytes, the outcomes on the same data
    are the same; and when the libraries' [verify] accepts the decoded
    signature over the data under the configured digest, the call
    succeeds. *)
Theorem validate_signature_trust_blind
    (cert1 cert2 sig1 sig2 : string) (data : bytes)
    (c1 c2 : X509 L) (raw : bytes) :
  verify_reads_pubkey_only L ->
  _to_cert L self cert1 = Return c1 ->
  _to_cert L self cert2 = Return c2 ->
  get_pubkey L c1 = get_pubkey L c2 ->
  decode_signature L sig1 = inr raw ->
  decode_signature L sig2 = inr raw ->
  (verify L c1 raw data (digest (config self)) = inr tt ->
   validate_signature L self cert1 sig1 data = Return tt)
  /\ validate_signature L self cert1 sig1 data =
       validate_signature L self cert2 sig2 data.
Proof.
  intros Hlaw H1 H2 Hkey Hs1 Hs2.
  unfold validate_signature. rewrite H1, H2. simpl.
  unfold decode_signature in Hs1, Hs2.
  destruct (str_encode L sig1) as [|b1]; simpl in Hs1; [discriminate|].
  destruct (str_encode L sig2) as [|b2]; simpl in Hs2; [discriminate|].
  simpl. rewrite Hs1, Hs2. simpl.
  rewrite (Hlaw c1 c2 raw data (digest (config self)) Hkey).
  split; [intros ->; reflexivity | reflexivity].
Qed.

(** C6: for a certificate text that parses, a signature string that does
    not decode (cause [e]), or that decodes to bytes which [verify] rejects
    (cause [e]), makes [validate_signature] raise
    [InvalidSignatureException] with "Signature is invalid: <str(e)>": the
    decoding failure is reported like the verification failure. *)
Theorem validate_signature_failure
    (certificate signature : string) (data : bytes)
    (c : X509 L) (e : PyException) :
  _to_cert L self certificate = Return c ->
  decode_signature L signature = inl e
  \/ (exists raw, decode_signature L signature = inr raw
               /\ verify L c raw data (digest (config self)) = inl e) ->
  validate_signature L self certificate signature data =
    Raise (InvalidSignatureException ("Signature is invalid: " ++ exc_str e)).
Proof.
  intros Hc Hfail. unfold validate_signature. rewrite Hc. simpl.
  unfold decode_signature in Hfail.
  destruct (str_encode L signature) as [e0 | sb]; simpl in *.
  - destruct Hfail as [[= ->] | [raw [[=] _]]]. reflexivity.
  - destruct (b64decode L sb) as [e0 | raw0]; simpl in *.
    + destruct Hfail as [[= ->] | [raw [[=] _]]]. reflexivity.
    + destruct Hfail as [[=] | [raw [[= ->] ->]]]. reflexivity.
Qed.

(** ** Path validation *)

(** C3: when the context is built and path validation fails with cause
    [e] (no trusted issuer, a date out of range, a revoked certificate),
    [validate_certificate] raises [InvalidCertificateException] with
    "Certificate is invalid: <str(e)>".  In particular, a leaf past its
    not-after date makes [validate_certificate] raise
    [InvalidCertificateException], for every chain text that is read and
    split and every CRL that is absent, empty or parsable. *)
Theorem path_validation_failure (certificate chain : string) (crl : option string) :
  (forall ctx e,
     build_context L self certificate chain crl = Return ctx ->
     verify_certificate L ctx = inl e ->
     validate_certificate L self certificate chain crl =
       Raise (InvalidCertificateException ("Certificate is invalid: " ++ exc_str e)))
  /\ (rejects_expired L ->
      forall c cb cas,
        _to_cert L self certificate = Return c ->
        has_expired L c = true ->
        str_encode L chain = inr cb ->
        pem_parse L cb = inr cas ->
        (forall t, if_truthy crl = Some t -> exists r, load_crl L FILETYPE_PEM t = inr r) ->
        exists msg, validate_certificate L self certificate chain crl =
                      Raise (InvalidCertificateException msg)).
Proof.
  split.
  - intros ctx e Hctx He. rewrite validate_certificate_eq. rewrite Hctx. simpl.
    rewrite He. reflexivity.
  - intros Hlaw c cb cas Hc Hexp Hcb Hcas Hcrl.
    rewrite validate_certificate_eq.
    destruct (build_context_cases certificate chain crl cb cas Hcb Hcas Hcrl)
      as [[ctx [Hctx _]] | [e He]].
    + rewrite Hctx. simpl.
      pose proof (build_context_cert _ _ _ _ Hctx) as Hleaf.
      rewrite Hc in Hleaf. injection Hleaf as Hleaf.
      destruct ctx as [store leaf]. simpl in Hleaf. subst leaf.
      destruct (Hlaw store c Hexp) as [e ->]. simpl. eauto.
    + rewrite He. simpl. eauto.
Qed.

(** C4: revocation is checked only when a CRL is passed.  Take a leaf that
    parses and a CRL text that parses to a list naming the leaf's serial
    number.  With that CRL the call fails, whatever the chain.  And when
    the call without CRL builds the context [ctx], the store of [ctx] has
    no flag and no revocation list, the call without CRL succeeds exactly
    when path validation accepts [ctx], and the call with the CRL raises
    [InvalidCertificateException] from path validation. *)
Theorem revocation_opt_in (certificate chain crl : string) (c : X509 L) (r : CRL L) :
  rejects_revoked L ->
  _to_cert L self certificate = Return c ->
  crl <> EmptyString ->
  load_crl L FILETYPE_PEM crl = inr r ->
  In (get_serial_number L c) (get_revoked L r) ->
  (exists err, validate_certificate L self certificate chain (Some crl) = Raise err)
  /\ (forall ctx,
        build_context L self certificate chain None = Return ctx ->
        store_flags (ctx_store ctx) = []
        /\ store_crls (ctx_store ctx) = []
        /\ (validate_certificate L self certificate chain None = Return tt
            <-> verify_certificate L ctx = inr tt)
        /\ (exists e, validate_certificate L self certificate chain (Some crl) =
                        Raise (InvalidCertificateException
                                 ("Certificate is invalid: " ++ exc_str e)))).
Proof.
  intros Hlaw Hc Hne Hr Hin.
  assert (Hrev : forall ctx,
             build_context L self certificate chain None = Return ctx ->
             exists e, verify_certificate L
                         (mkCtx (add_crl (set_flags (ctx_store ctx) CRL_CHECK) r)
                                (ctx_cert ctx)) = inl e).
  { intros ctx Hctx.
    destruct (build_context_plain certificate chain None ctx eq_refl Hctx) as [Hf Hl].
    pose proof (build_context_cert _ _ _ _ Hctx) as Hleaf.
    rewrite Hc in Hleaf. injection Hleaf as Hleaf.
    apply (Hlaw _ _ r); simpl.
    - rewrite Hf. simpl. auto.
    - rewrite Hl. reflexivity.
    - rewrite <- Hleaf. exact Hin. }
  split.
  - rewrite validate_certificate_eq.
    destruct (build_context L self certificate chain (Some crl)) as [ctx' | err] eqn:Hctx';
      simpl; [| eauto].
    destruct (build_context_with_crl_inv _ _ _ _ _ Hne Hr Hctx') as [ctx [Hctx ->]].
    destruct (Hrev ctx Hctx) as [e ->]. simpl. eauto.
  - intros ctx Hctx.
    destruct (build_context_plain certificate chain None ctx eq_refl Hctx) as [Hf Hl].
    split; [exact Hf | split; [exact Hl | split]].
    + rewrite validate_certificate_eq, Hctx. simpl.
      destruct (verify_certificate L ctx) as [e | []]; simpl; split;
        solve [discriminate | reflexivity].
    + rewrite validate_certificate_eq.
      rewrite (build_context_with_crl certificate chain crl r ctx Hne Hr Hctx). simpl.
      destruct (Hrev ctx Hctx) as [e ->]. simpl. exists e. reflexivity.
Qed.

(** C9: a chain text that splits into no block builds the empty store
    without raising: the loop returns the new store, and with a leaf that
    parses the context holds that empty store.  The emptiness shows at
    validation only: for every leaf text, [validate_certificate] raises
    [InvalidCertificateException] (the CRL being absent, empty or
    parsable). *)
Theorem empty_chain_deferred (chain : string) (cb : bytes) :
  rejects_empty_store L ->
  str_encode L chain = inr cb ->
  pem_parse L cb = inr [] ->
  add_cas L self [] new_store = Return new_store
  /\ (forall certificate c,
        _to_cert L self certificate = Return c ->
        build_context L self certificate chain None = Return (mkCtx new_store c))
  /\ (forall certificate crl,
        (forall t, if_truthy crl = Some t -> exists r, load_crl L FILETYPE_PEM t = inr r) ->
        exists msg, validate_certificate L self certificate chain crl =
                      Raise (InvalidCertificateException msg)).
Proof.
  intros Hlaw Hcb Hcas. split; [reflexivity | split].
  - intros certificate c Hc. unfold build_context.
    rewrite Hcb. simpl. rewrite Hcas. simpl. rewrite Hc. reflexivity.
  - intros certificate crl Hcrl. rewrite validate_certificate_eq.
    destruct (build_context_cases certificate chain crl cb [] Hcb Hcas Hcrl)
      as [[ctx [Hctx Hall]] | [e He]].
    + rewrite Hctx. simpl. destruct ctx as [store leaf]. simpl in Hall.
      destruct (Hlaw store leaf) as [e ->].
      * now inversion Hall.
      * simpl. eauto.
    + rewrite He. simpl. eauto.
Qed.

(** C10: the empty string as CRL is the absent CRL.  The context built and
    the outcome are those of the call without CRL; the store of that
    context has no flag and no revocation list; and [load_crl] is not
    consulted: replacing it by any other function changes nothing. *)
Theorem empty_crl_is_no_crl (certificate chain : string) :
  build_context L self certificate chain (Some EmptyString) =
    build_context L self certificate chain None
  /\ validate_certificate L self certificate chain (Some EmptyString) =
       validate_certificate L self certificate chain None
  /\ (forall ctx, build_context L self certificate chain (Some EmptyString) = Return ctx ->
        store_flags (ctx_store ctx) = [] /\ store_crls (ctx_store ctx) = [])
  /\ (forall f, validate_certificate (with_load_crl L f) self certificate chain (Some EmptyString) =
                validate_certificate L self certificate chain None).
Proof.
  split; [reflexivity | split; [reflexivity | split]].
  - intros ctx Hctx. now apply (build_context_plain certificate chain (Some EmptyString) ctx).
  - intros f. reflexivity.
Qed.

(** C2, as the code has it: a non-empty CRL text that [load_crl] rejects
    with cause [e] makes [validate_certificate] end with the library's own
    exception [e], not with [InvalidCertificateException], whenever the
    same call without CRL gets as far as path validation. *)
Theorem unparsable_crl_escapes (certificate chain crl : string)
    (ctx : X509StoreContext (X509 L) (CRL L)) (e : PyException) :
  build_context L self certificate chain None = Return ctx ->
  crl <> EmptyString ->
  load_crl L FILETYPE_PEM crl = inl e ->
  validate_certificate L self certificate chain (Some crl) = Raise (Unhandled e).
Proof.
  intros Hctx Hne He. rewrite validate_certificate_eq.
  unfold build_context in *. rewrite (if_truthy_nonempty crl Hne). simpl in *.
  destruct (str_encode L chain) as [|cb]; simpl in *; [discriminate|].
  destruct (pem_parse L cb) as [|cas]; simpl in *; [discriminate|].
  destruct (add_cas L self cas new_store) as [store|]; simpl in *; [|discriminate].
  destruct (_to_cert L self certificate) as [c|]; simpl in *; [|discriminate].
  rewrite He. reflexivity.
Qed.

End Properties.

(** * The executable library at work *)

(** ** It behaves as the properties assume *)

Lemma Ref_rejects_expired : rejects_expired Ref.library.
Proof.
  intros store c Hexp. cbn [has_expired Ref.library] in Hexp.
  cbn [verify_certificate Ref.library].
  unfold Ref.ref_verify_certificate. cbn [ctx_cert]. rewrite Hexp. eauto.
Qed.

Lemma Ref_rejects_empty_store : rejects_empty_store Ref.library.
Proof.
  intros [certs flags crls] c Hempty. simpl in Hempty. subst certs.
  cbn [verify_certificate Ref.library].
  unfold Ref.ref_verify_certificate. cbn [ctx_store ctx_cert store_certs existsb negb].
  destruct (Ref.ref_has_expired c); [eauto |].
  destruct (negb (Ref.in_period c)); eauto.
Qed.

Lemma Ref_flag_set (flags : list X509StoreFlags) :
  In CRL_CHECK flags -> existsb Ref.is_crl_check flags = true.
Proof.
  intros Hin. apply existsb_exists. exists CRL_CHECK. split; [exact Hin | reflexivity].
Qed.

Lemma Ref_rejects_revoked : rejects_revoked Ref.library.
Proof.
  intros [certs flags crls] c r Hflag Hcrls Hin.
  cbn [store_flags store_crls] in Hflag, Hcrls. subst crls.
  cbn [get_serial_number get_revoked Ref.library] in Hin.
  cbn [verify_certificate Ref.library].
  unfold Ref.ref_verify_certificate.
  cbn [ctx_store ctx_cert store_certs store_flags store_crls].
  rewrite (Ref_flag_set _ Hflag).
  destruct (Ref.ref_has_expired c); [eauto |].
  destruct (negb (Ref.in_period c)); [eauto |].
  match goal with
  | |- context [existsb ?f certs] => destruct (existsb f certs)
  end; cbn [negb]; [| eauto].
  cbn [filter].
  destruct (String.eqb (Ref.crl_issuer r) (Ref.cert_issuer c)); [| eauto].
  cbn [existsb]. rewrite orb_false_r.
  assert (Hrev : existsb (Z.eqb (Ref.cert_serial c)) (Ref.crl_revoked r) = true).
  { apply existsb_exists. exists (Ref.cert_serial c). split; [exact Hin | apply Z.eqb_refl]. }
  rewrite Hrev. eauto.
Qed.

Lemma Ref_verify_reads_pubkey_only : verify_reads_pubkey_only Ref.library.
Proof.
  intros c1 c2 sig data dgst Hkey. cbn [get_pubkey Ref.library] in Hkey.
  cbn [verify Ref.library]. unfold Ref.ref_verify. rewrite Hkey. reflexivity.
Qed.

(** ** Runs *)

(** The leaf "/news" keeps its slash. *)
Lemma get_cn_verbatim_witness :
  _to_cert Ref.library Ref.validator Ref.slash_pem = Return Ref.slash_news
  /\ get_cn Ref.library Ref.validator Ref.slash_pem = Return (Some "/news").
Proof.
  assert (H : _to_cert Ref.library Ref.validator Ref.slash_pem = Return Ref.slash_news)
    by (vm_compute; reflexivity).
  split; [exact H |].
  exact (proj1 (get_cn_verbatim Ref.library Ref.validator Ref.slash_pem Ref.slash_news H)).
Defined.

(** "news" publishes as "news" and not as "News"; "core", on the master
    list, publishes as anything. *)
Lemma validate_app_id_spec_witness :
  validate_app_id Ref.library Ref.settings Ref.validator Ref.news_pem "news" = Return tt
  /\ validate_app_id Ref.library Ref.settings Ref.validator Ref.core_pem "anything" = Return tt
  /\ validate_app_id Ref.library Ref.settings Ref.validator Ref.news_pem "News" =
       Raise (CertificateAppIdMismatchException "App id News does not match cert CN news").
Proof.
  assert (Hnews : _to_cert Ref.library Ref.validator Ref.news_pem = Return Ref.news)
    by (vm_compute; reflexivity).
  assert (Hcore : _to_cert Ref.library Ref.validator Ref.core_pem = Return Ref.core)
    by (vm_compute; reflexivity).
  split; [| split].
  - apply (proj1 (validate_app_id_spec Ref.library Ref.settings Ref.validator
                    Ref.news_pem "news")).
    exists Ref.news. split; [exact Hnews | left; reflexivity].
  - apply (proj1 (validate_app_id_spec Ref.library Ref.settings Ref.validator
                    Ref.core_pem "anything")).
    exists Ref.core. split; [exact Hcore |].
    right. exists "core". split; [reflexivity | simpl; auto].
  - apply (proj2 (validate_app_id_spec Ref.library Ref.settings Ref.validator
                    Ref.news_pem "News") Ref.news Hnews).
    intros [Heq | [s [Heq [<- | []]]]]; discriminate Heq.
Defined.

(** The empty text is no certificate, for every method. *)
Lemma to_cert_failure_witness :
  parse_certificate Ref.library EmptyString =
    inl (Ref.crypto_error "[('PEM routines', '', 'no start line')]")
  /\ _to_cert Ref.library Ref.validator EmptyString =
       Raise (InvalidCertificateException
                "Invalid certificate: [('PEM routines', '', 'no start line')]")
  /\ validate_certificate Ref.library Ref.validator EmptyString Ref.root_pem None =
       Raise (InvalidCertificateException
                "Invalid certificate: [('PEM routines', '', 'no start line')]").
Proof.
  assert (H : parse_certificate Ref.library EmptyString =
                inl (Ref.crypto_error "[('PEM routines', '', 'no start line')]"))
    by (vm_compute; reflexivity).
  pose proof (to_cert_failure Ref.library Ref.settings Ref.validator EmptyString _ H)
    as [H1 [_ [_ [_ H5]]]].
  split; [exact H | split; [exact H1 |]].
  refine (proj2 (H5 Ref.root_pem None (list_byte_of_string Ref.root_pem)
                   [Ref.root_pem] _ _) _ _); vm_compute; reflexivity.
Defined.

(** The certificate of "news" that expired, checked against no chain at
    all, still verifies a signature made with its key. *)
Lemma validate_signature_trust_blind_witness :
  has_expired Ref.library Ref.news_old = true
  /\ validate_certificate Ref.library Ref.validator Ref.news_old_pem EmptyString None =
       Raise (InvalidCertificateException "Certificate is invalid: certificate has expired")
  /\ validate_signature Ref.library Ref.validator Ref.news_old_pem Ref.hello_sig Ref.hello =
       Return tt
  /\ validate_signature Ref.library Ref.validator Ref.news_old_pem Ref.hello_sig Ref.hello =
       validate_signature Ref.library Ref.validator Ref.news_pem Ref.hello_sig Ref.hello.
Proof.
  split; [vm_compute; reflexivity | split; [vm_compute; reflexivity |]].
  assert (H : (verify Ref.library Ref.news_old (Ref.sign (Ref.cert_key Ref.news) Ref.hello)
                 Ref.hello (digest (config Ref.validator)) = inr tt ->
               validate_signature Ref.library Ref.validator Ref.news_old_pem
                 Ref.hello_sig Ref.hello = Return tt)
              /\ validate_signature Ref.library Ref.validator Ref.news_old_pem
                   Ref.hello_sig Ref.hello =
                 validate_signature Ref.library Ref.validator Ref.news_pem
                   Ref.hello_sig Ref.hello).
  { apply (validate_signature_trust_blind Ref.library Ref.validator
             Ref.news_old_pem Ref.news_pem Ref.hello_sig Ref.hello_sig Ref.hello
             Ref.news_old Ref.news (Ref.sign (Ref.cert_key Ref.news) Ref.hello)).
    - exact Ref_verify_reads_pubkey_only.
    - vm_compute; reflexivity.
    - vm_compute; reflexivity.
    - reflexivity.
    - vm_compute; reflexivity.
    - vm_compute; reflexivity. }
  destruct H as [Hok Hsame].
  split; [apply Hok; vm_compute; reflexivity | exact Hsame].
Defined.

(** A signature string of one character does not decode, and the signature
    of other data does not verify: the same exception, two causes. *)
Lemma validate_signature_failure_witness :
  validate_signature Ref.library Ref.validator Ref.news_pem "A" Ref.hello =
    Raise (InvalidSignatureException "Signature is invalid: Invalid base64-encoded string")
  /\ validate_signature Ref.library Ref.validator Ref.news_pem Ref.hello_sig
       (list_byte_of_string "hello w0rld") =
     Raise (InvalidSignatureException
              "Signature is invalid: [('rsa routines', '', 'bad signature')]").
Proof.
  split.
  - apply (validate_signature_failure Ref.library Ref.validator Ref.news_pem "A"
             Ref.hello Ref.news (Ref.binascii_error "Invalid base64-encoded string")).
    + vm_compute; reflexivity.
    + left. vm_compute; reflexivity.
  - apply (validate_signature_failure Ref.library Ref.validator Ref.news_pem Ref.hello_sig
             (list_byte_of_string "hello w0rld") Ref.news
             (Ref.crypto_error "[('rsa routines', '', 'bad signature')]")).
    + vm_compute; reflexivity.
    + right. exists (Ref.sign (Ref.cert_key Ref.news) Ref.hello).
      split; vm_compute; reflexivity.
Defined.

(** "news" against an empty chain finds no issuer; the expired "news"
    against its root is rejected too. *)
Lemma path_validation_failure_witness :
  validate_certificate Ref.library Ref.validator Ref.news_pem EmptyString None =
    Raise (InvalidCertificateException
             "Certificate is invalid: unable to get local issuer certificate")
  /\ has_expired Ref.library Ref.news_old = true
  /\ exists msg,
       validate_certificate Ref.library Ref.validator Ref.news_old_pem Ref.root_pem None =
         Raise (InvalidCertificateException msg).
Proof.
  split; [| split; [vm_compute; reflexivity |]].
  - apply (proj1 (path_validation_failure Ref.library Ref.validator Ref.news_pem EmptyString None)
             (mkCtx new_store Ref.news)
             (Ref.verification_error "unable to get local issuer certificate"));
      vm_compute; reflexivity.
  - apply (proj2 (path_validation_failure Ref.library Ref.validator
                    Ref.news_old_pem Ref.root_pem None)
             Ref_rejects_expired Ref.news_old
             (list_byte_of_string Ref.root_pem) [Ref.root_pem]).
    + vm_compute; reflexivity.
    + vm_compute; reflexivity.
    + vm_compute; reflexivity.
    + vm_compute; reflexivity.
    + intros t Ht. discriminate Ht.
Defined.

(** "news" with serial 4097 is on the root's revocation list: rejected
    with the list, accepted without. *)
Lemma revocation_opt_in_witness :
  (exists e,
     validate_certificate Ref.library Ref.validator Ref.news_pem Ref.root_pem
       (Some Ref.root_crl_pem) =
     Raise (InvalidCertificateException ("Certificate is invalid: " ++ exc_str e)))
  /\ validate_certificate Ref.library Ref.validator Ref.news_pem Ref.root_pem None =
       Return tt.
Proof.
  assert (Hc : _to_cert Ref.library Ref.validator Ref.news_pem = Return Ref.news)
    by (vm_compute; reflexivity).
  assert (Hne : Ref.root_crl_pem <> EmptyString) by (vm_compute; discriminate).
  assert (Hcrl : load_crl Ref.library FILETYPE_PEM Ref.root_crl_pem = inr Ref.root_crl)
    by (vm_compute; reflexivity).
  assert (Hin : In (get_serial_number Ref.library Ref.news)
                   (get_revoked Ref.library Ref.root_crl))
    by (simpl; left; reflexivity).
  assert (Hctx : build_context Ref.library Ref.validator Ref.news_pem Ref.root_pem None =
                 Return (mkCtx (mkStore [Ref.root_ca] [] []) Ref.news))
    by (vm_compute; reflexivity).
  destruct (revocation_opt_in Ref.library Ref.validator Ref.news_pem Ref.root_pem
              Ref.root_crl_pem Ref.news Ref.root_crl
              Ref_rejects_revoked Hc Hne Hcrl Hin)
    as [_ Hplain].
  destruct (Hplain _ Hctx) as [_ [_ [Hok Hrev]]].
  split; [exact Hrev | apply Hok; vm_compute; reflexivity].
Defined.

(** The empty chain text: the store is built, empty, and "news" is
    rejected at validation. *)
Lemma empty_chain_deferred_witness :
  build_context Ref.library Ref.validator Ref.news_pem EmptyString None =
    Return (mkCtx new_store Ref.news)
  /\ exists msg,
       validate_certificate Ref.library Ref.validator Ref.news_pem EmptyString None =
         Raise (InvalidCertificateException msg).
Proof.
  destruct (empty_chain_deferred Ref.library Ref.validator EmptyString []
              Ref_rejects_empty_store eq_refl eq_refl) as [_ [Hbuild Hreject]].
  split.
  - apply Hbuild. vm_compute; reflexivity.
  - apply Hreject. intros t Ht. discriminate Ht.
Defined.

(** A CRL text that is no CRL: the library's error comes out as it is. *)
Lemma unparsable_crl_escapes_witness :
  validate_certificate Ref.library Ref.validator Ref.news_pem Ref.root_pem
    (Some "not a crl") =
  Raise (Unhandled (Ref.crypto_error "[('PEM routines', '', 'no start line')]")).
Proof.
  apply (unparsable_crl_escapes Ref.library Ref.validator Ref.news_pem Ref.root_pem
           "not a crl" (mkCtx (mkStore [Ref.root_ca] [] []) Ref.news)).
  - vm_compute; reflexivity.
  - discriminate.
  - vm_compute; reflexivity.
Defined.

(** The empty CRL text lets the revoked "news" through, as no CRL does. *)
Example empty_crl_run :
  validate_certificate Ref.library Ref.validator Ref.news_pem Ref.root_pem
    (Some EmptyString) = Return tt
  /\ validate_certificate Ref.library Ref.validator Ref.news_pem Ref.root_pem
       (Some Ref.root_crl_pem) =
     Raise (InvalidCertificateException "Certificate is invalid: certificate revoked").
Proof. split; vm_compute; reflexivity. Qed.

(** The anchors enter the store in the order of the bundle. *)
Example bundle_order_run :
  build_context Ref.library Ref.validator Ref.news_pem
    (Ref.root_pem ++ Ref.core_pem) None =
  Return (mkCtx (mkStore [Ref.root_ca; Ref.core] [] []) Ref.news).
Proof. vm_compute; reflexivity. Qed.

(** A chain block that is no certificate stops the call before the leaf is
    looked at. *)
Example bad_anchor_run :
  validate_certificate Ref.library Ref.validator Ref.news_pem
    (Ref.root_pem ++ Ref.pem_of "MIIBgarbage") None =
  Raise (InvalidCertificateException
           "Invalid certificate: [('asn1 encoding routines', '', 'not enough data')]").
Proof. vm_compute; reflexivity. Qed.

(** Without [MASTER_CERTIFICATE_CNS] in the settings nobody is master, and a
    subject without CN matches nothing. *)
Example no_master_run :
  validate_app_id Ref.library Ref.bare_settings Ref.validator Ref.core_pem "news" =
    Raise (CertificateAppIdMismatchException "App id news does not match cert CN core")
  /\ validate_app_id Ref.library Ref.settings Ref.validator Ref.anon_pem "news" =
       Raise (CertificateAppIdMismatchException "App id news does not match cert CN None").
Proof. split; vm_compute; reflexivity. Qed.

(** * Further properties of the validator *)

Section Outcomes.

Variable L : Library.
Variable self : CertificateValidator.

(** ** The loop over the chain *)

Lemma add_cas_ok (cas : list (PemObject L)) (cs : list (X509 L))
    (store : X509Store (X509 L) (CRL L)) :
  anchors_parse L cas cs ->
  add_cas L self cas store =
    Return (mkStore (store_certs store ++ cs) (store_flags store) (store_crls store)).
Proof.
  intros Hall. revert store.
  induction Hall as [| ca c cas cs Hc _ IH]; intros store; simpl.
  - rewrite app_nil_r. destruct store; reflexivity.
  - rewrite (proj2 (_to_cert_Return L self _ _) Hc). simpl.
    rewrite IH. simpl. rewrite <- app_assoc. reflexivity.
Qed.

Lemma add_cas_Return_inv (cas : list (PemObject L))
    (store store' : X509Store (X509 L) (CRL L)) :
  add_cas L self cas store = Return store' ->
  exists cs, anchors_parse L cas cs
             /\ store' = mkStore (store_certs store ++ cs)
                           (store_flags store) (store_crls store).
Proof.
  revert store. induction cas as [| ca rest IH]; intros store; simpl.
  - intros [= <-]. exists []. split; [constructor |].
    rewrite app_nil_r. destruct store; reflexivity.
  - destruct (_to_cert L self (pem_str L ca)) as [c |] eqn:Hc; simpl; [| discriminate].
    intros Hrest. destruct (IH _ Hrest) as [cs [Hall ->]].
    exists (c :: cs). split.
    + constructor; [now apply (_to_cert_Return L self) | exact Hall].
    + simpl. rewrite <- app_assoc. reflexivity.
Qed.

Lemma add_cas_first_bad (pre post : list (PemObject L)) (ca : PemObject L)
    (cs : list (X509 L)) (e : PyException) (store : X509Store (X509 L) (CRL L)) :
  anchors_parse L pre cs ->
  parse_certificate L (pem_str L ca) = inl e ->
  add_cas L self (pre ++ ca :: post) store =
    Raise (InvalidCertificateException ("Invalid certificate: " ++ exc_str e)).
Proof.
  intros Hall He. revert store.
  induction Hall as [| ca0 c pre cs Hc _ IH]; intros store; simpl.
  - rewrite (_to_cert_Raise L self _ _ He). reflexivity.
  - rewrite (proj2 (_to_cert_Return L self _ _) Hc). simpl. apply IH.
Qed.

Lemma add_cas_Raise_inv (cas : list (PemObject L))
    (store : X509Store (X509 L) (CRL L)) (err : error) :
  add_cas L self cas store = Raise err ->
  exists pre ca post cs e,
    cas = (pre ++ ca :: post)%list
    /\ anchors_parse L pre cs
    /\ parse_certificate L (pem_str L ca) = inl e
    /\ err = InvalidCertificateException ("Invalid certificate: " ++ exc_str e).
Proof.
  revert store. induction cas as [| ca rest IH]; intros store; simpl; [discriminate |].
  destruct (_to_cert_cases L self (pem_str L ca)) as [[c Hc] | [e [He Hr]]].
  - rewrite Hc. simpl. intros Hrest.
    destruct (IH _ Hrest) as [pre [ca' [post [cs [e [-> [Hall [He ->]]]]]]]].
    exists (ca :: pre), ca', post, (c :: cs), e.
    split; [reflexivity | split; [| auto]].
    constructor; [now apply (_to_cert_Return L self) | exact Hall].
  - rewrite Hr. simpl. intros [= <-].
    exists [], ca, rest, [], e. split; [reflexivity | split; [constructor | auto]].
Qed.

(** ** [validate_signature] *)

(** X1: [validate_signature] returns exactly when the certificate text
    parses, the signature string decodes and [verify] accepts the decoded
    bytes over the data under the configured digest.  When it raises, it
    is [InvalidCertificateException] for a certificate text that does not
    parse, or [InvalidSignatureException] for a signature that does not
    decode or does not verify; no other exception leaves it, in particular
    none of the libraries' own. *)
Theorem validate_signature_outcomes (certificate signature : string) (data : bytes) :
  (validate_signature L self certificate signature data = Return tt
   <-> exists c raw,
         parse_certificate L certificate = inr c
         /\ decode_signature L signature = inr raw
         /\ verify L c raw data (digest (config self)) = inr tt)
  /\ (forall err,
        validate_signature L self certificate signature data = Raise err ->
        (exists e, parse_certificate L certificate = inl e
                   /\ err = InvalidCertificateException
                              ("Invalid certificate: " ++ exc_str e))
        \/ (exists c e,
              parse_certificate L certificate = inr c
              /\ (decode_signature L signature = inl e
                  \/ exists raw, decode_signature L signature = inr raw
                                 /\ verify L c raw data (digest (config self)) = inl e)
              /\ err = InvalidSignatureException
                         ("Signature is invalid: " ++ exc_str e))).
Proof.
  unfold validate_signature, decode_signature.
  destruct (parse_certificate L certificate) as [e | c] eqn:Hp.
  - rewrite (_to_cert_Raise L self _ _ Hp). simpl. split.
    + split; [discriminate | intros [c [raw [[=] _]]]].
    + intros err [= <-]. left. exists e. auto.
  - rewrite (proj2 (_to_cert_Return L self _ _) Hp). simpl.
    destruct (str_encode L signature) as [e | sb]; simpl.
    + split.
      * split; [discriminate | intros [c' [raw [_ [[=] _]]]]].
      * intros err [= <-]. right. exists c, e. auto.
    + destruct (b64decode L sb) as [e | raw]; simpl.
      * split.
        -- split; [discriminate | intros [c' [raw [_ [[=] _]]]]].
        -- intros err [= <-]. right. exists c, e. auto.
      * destruct (verify L c raw data (digest (config self))) as [e | []] eqn:Hv; simpl.
        -- split.
           ++ split; [discriminate |].
              intros [c' [raw' [[= <-] [[= <-] Hv']]]]. congruence.
           ++ intros err [= <-]. right. exists c, e.
              split; [reflexivity | split; [| reflexivity]].
              right. exists raw. auto.
        -- split.
           ++ split; [intros _; exists c, raw; auto | reflexivity].
           ++ intros err [=].
Qed.

(** ** [validate_certificate] *)

(** X2: [validate_certificate] returns exactly when the chain text is read
    and split into blocks that all parse, the leaf parses, the CRL (when
    one is given and not empty) parses, and path validation accepts the
    leaf against the store holding exactly the certificates of the blocks,
    in their order, with [CRL_CHECK] and the list when there is a CRL and
    with no flag and no list otherwise. *)
Theorem validate_certificate_accepts_iff (certificate chain : string)
    (crl : option string) :
  validate_certificate L self certificate chain crl = Return tt
  <-> exists cb cas cs c flags crls,
        str_encode L chain = inr cb
        /\ pem_parse L cb = inr cas
        /\ anchors_parse L cas cs
        /\ parse_certificate L certificate = inr c
        /\ revocation_setup L crl flags crls
        /\ verify_certificate L (mkCtx (mkStore cs flags crls) c) = inr tt.
Proof.
  rewrite validate_certificate_eq. unfold build_context, revocation_setup. split.
  - destruct (str_encode L chain) as [| cb] eqn:Hcb; simpl; [discriminate |].
    destruct (pem_parse L cb) as [| cas] eqn:Hcas; simpl; [discriminate |].
    destruct (add_cas L self cas new_store) as [store |] eqn:Hadd; simpl; [| discriminate].
    apply add_cas_Return_inv in Hadd as [cs [Hall ->]]. simpl.
    destruct (_to_cert L self certificate) as [c |] eqn:Hc; simpl; [| discriminate].
    apply (_to_cert_Return L self) in Hc.
    destruct (if_truthy crl) as [t |] eqn:Ht; simpl.
    + destruct (load_crl L FILETYPE_PEM t) as [| r] eqn:Hr; simpl; [discriminate |].
      destruct (verify_certificate L _) as [| []] eqn:Hv; simpl; [discriminate |].
      intros _. exists cb, cas, cs, c, [CRL_CHECK], [r].
      repeat split; try assumption. exists r. auto.
    + destruct (verify_certificate L _) as [| []] eqn:Hv; simpl; [discriminate |].
      intros _. exists cb, cas, cs, c, [], [].
      repeat split; assumption.
  - intros [cb [cas [cs [c [flags [crls [Hcb [Hcas [Hall [Hc [Hrev Hv]]]]]]]]]]].
    rewrite Hcb. simpl. rewrite Hcas. simpl.
    rewrite (add_cas_ok cas cs new_store Hall). simpl.
    rewrite (proj2 (_to_cert_Return L self _ _) Hc). simpl.
    destruct (if_truthy crl) as [t |].
    + destruct Hrev as [r [Hr [-> ->]]]. rewrite Hr. simpl.
      unfold add_crl, set_flags. simpl. rewrite Hv. reflexivity.
    + destruct Hrev as [-> ->]. simpl. rewrite Hv. reflexivity.
Qed.

(** X3: when [validate_certificate] raises, it is one of three things: an
    exception of the libraries left as it is, which comes from
    [chain.encode()], from [pem.parse] or from [load_crl] and from nowhere
    else; [InvalidCertificateException] "Invalid certificate: ..." for the
    leaf or a block of the chain that does not parse; or
    [InvalidCertificateException] "Certificate is invalid: ..." for a
    context that was built and that path validation rejects.  It never
    raises the two other exceptions of the module. *)
Theorem validate_certificate_raises (certificate chain : string)
    (crl : option string) (err : error) :
  validate_certificate L self certificate chain crl = Raise err ->
  (exists e,
     err = Unhandled e
     /\ (str_encode L chain = inl e
         \/ (exists cb, str_encode L chain = inr cb /\ pem_parse L cb = inl e)
         \/ (exists t, if_truthy crl = Some t /\ load_crl L FILETYPE_PEM t = inl e)))
  \/ (exists e,
        err = InvalidCertificateException ("Invalid certificate: " ++ exc_str e)
        /\ (parse_certificate L certificate = inl e
            \/ exists cb cas ca,
                 str_encode L chain = inr cb /\ pem_parse L cb = inr cas
                 /\ In ca cas /\ parse_certificate L (pem_str L ca) = inl e))
  \/ (exists e ctx,
        err = InvalidCertificateException ("Certificate is invalid: " ++ exc_str e)
        /\ build_context L self certificate chain crl = Return ctx
        /\ verify_certificate L ctx = inl e).
Proof.
  rewrite validate_certificate_eq.
  destruct (build_context L self certificate chain crl) as [ctx | err'] eqn:Hctx; simpl.
  - destruct (verify_certificate L ctx) as [e | []] eqn:Hv; simpl; [| discriminate].
    intros [= <-]. right. right. exists e, ctx. auto.
  - intros [= <-]. revert Hctx. unfold build_context.
    destruct (str_encode L chain) as [e | cb] eqn:Hcb; simpl.
    { intros [= <-]. left. exists e. auto. }
    destruct (pem_parse L cb) as [e | cas] eqn:Hcas; simpl.
    { intros [= <-]. left. exists e. split; [reflexivity |]. right. left. eauto. }
    destruct (add_cas L self cas new_store) as [store | err0] eqn:Hadd; simpl.
    2:{ intros [= <-].
        apply add_cas_Raise_inv in Hadd
          as [pre [ca [post [cs [e [-> [_ [He ->]]]]]]]].
        right. left. exists e. split; [reflexivity |]. right.
        exists cb, (pre ++ ca :: post)%list, ca.
        repeat split; try assumption. apply in_elt. }
    destruct (_to_cert_cases L self certificate) as [[c Hc] | [e [He Hr]]].
    2:{ rewrite Hr. simpl. intros [= <-]. right. left. exists e. auto. }
    rewrite Hc. simpl.
    destruct (if_truthy crl) as [t |] eqn:Ht; simpl; [| discriminate].
    destruct (load_crl L FILETYPE_PEM t) as [e | r] eqn:Hr; simpl; [| discriminate].
    intros [= <-]. left. exists e. split; [reflexivity |]. right. right. eauto.
Qed.

(** X4: the chain is looked at first.  When a block of the chain does not
    parse (cause [e]) and the blocks before it do, [validate_certificate]
    raises [InvalidCertificateException] "Invalid certificate: <str(e)>",
    whatever the leaf, the blocks after it and the CRL are; the leaf is
    not parsed and the CRL not loaded. *)
Theorem first_bad_anchor_wins (certificate chain : string) (crl : option string)
    (cb : bytes) (pre post : list (PemObject L)) (ca : PemObject L)
    (cs : list (X509 L)) (e : PyException) :
  str_encode L chain = inr cb ->
  pem_parse L cb = inr (pre ++ ca :: post)%list ->
  anchors_parse L pre cs ->
  parse_certificate L (pem_str L ca) = inl e ->
  validate_certificate L self certificate chain crl =
    Raise (InvalidCertificateException ("Invalid certificate: " ++ exc_str e)).
Proof.
  intros Hcb Hcas Hall He.
  rewrite validate_certificate_eq. unfold build_context.
  rewrite Hcb. simpl. rewrite Hcas. simpl.
  rewrite (add_cas_first_bad pre post ca cs e new_store Hall He). reflexivity.
Qed.

End Outcomes.

Section Identity.

Variable L : Library.
Variable self : CertificateValidator.

Lemma py_in_same_members (x : option string) (l1 l2 : list string) :
  (forall s, In s l1 -> In s l2) ->
  py_in x l1 = true -> py_in x l2 = true.
Proof.
  intros Hincl H. apply py_in_true in H as [s [Hx Hin]].
  apply py_in_true. exists s. auto.
Qed.

(** X5: a certificate is accepted under its own name.  When [get_cn]
    returns the CN [cn] for a certificate text, [validate_app_id] on that
    text and [cn] returns, whatever the master list is. *)
Theorem own_cn_accepted (settings : Settings) (certificate cn : string) :
  get_cn L self certificate = Return (Some cn) ->
  validate_app_id L settings self certificate cn = Return tt.
Proof.
  intros H. unfold validate_app_id. rewrite H. simpl.
  rewrite String.eqb_refl. reflexivity.
Qed.


(** X7: when the settings have no [MASTER_CERTIFICATE_CNS], nobody is
    master: [validate_app_id] returns exactly when the text parses and the
    CN is the expected identifier. *)
Theorem missing_master_list (settings : Settings) (certificate app_id : string) :
  MASTER_CERTIFICATE_CNS settings = None ->
  (validate_app_id L settings self certificate app_id = Return tt
   <-> exists c, parse_certificate L certificate = inr c
                 /\ subject_CN L c = Some app_id).
Proof.
  intros Hnone. unfold validate_app_id, get_cn, master_cns_of. rewrite Hnone.
  destruct (parse_certificate L certificate) as [e | c] eqn:Hp.
  - rewrite (_to_cert_Raise L self _ _ Hp). simpl.
    split; [discriminate | intros [c [[=] _]]].
  - rewrite (proj2 (_to_cert_Return L self _ _) Hp). simpl.
    destruct (py_eq (subject_CN L c) app_id) eqn:Heq.
    + split; [| reflexivity]. intros _. exists c. split; [reflexivity |].
      now apply py_eq_true.
    + split; [discriminate |].
      intros [c' [[= <-] Hcn]]. apply py_eq_true in Hcn. congruence.
Qed.

(** X8: the master list is used as a set.  Adding names to it never turns
    an accepted pair of certificate and identifier into a rejected one,
    and two lists with the same members give the same outcome, message
    included. *)
Theorem master_list_as_set (s1 s2 : Settings) (certificate app_id : string) :
  (forall x, In x (master_cns_of s1) -> In x (master_cns_of s2)) ->
  (validate_app_id L s1 self certificate app_id = Return tt ->
   validate_app_id L s2 self certificate app_id = Return tt)
  /\ ((forall x, In x (master_cns_of s2) -> In x (master_cns_of s1)) ->
      validate_app_id L s1 self certificate app_id =
        validate_app_id L s2 self certificate app_id).
Proof.
  intros Hincl. unfold validate_app_id, get_cn.
  destruct (_to_cert L self certificate) as [c | err]; simpl; [| auto].
  destruct (py_eq (subject_CN L c) app_id); [auto |].
  destruct (py_in (subject_CN L c) (master_cns_of s1)) eqn:H1.
  - rewrite (py_in_same_members _ _ _ Hincl H1). auto.
  - split; [discriminate |]. intros Hback.
    destruct (py_in (subject_CN L c) (master_cns_of s2)) eqn:H2; [| reflexivity].
    rewrite (py_in_same_members _ _ _ Hback H2) in H1. discriminate.
Qed.

(** X9: [validate_app_id] reads nothing of the certificate but its CN: two
    certificate texts that parse to certificates with the same CN, whatever
    their dates, issuers and keys, give the same outcome for every
    identifier. *)
Theorem validate_app_id_reads_cn_only (settings : Settings)
    (cert1 cert2 app_id : string) (c1 c2 : X509 L) :
  _to_cert L self cert1 = Return c1 ->
  _to_cert L self cert2 = Return c2 ->
  subject_CN L c1 = subject_CN L c2 ->
  validate_app_id L settings self cert1 app_id =
    validate_app_id L settings self cert2 app_id.
Proof.
  intros H1 H2 Hcn. unfold validate_app_id, get_cn.
  rewrite H1, H2. simpl. rewrite Hcn. reflexivity.
Qed.

(** X10: when [validate_app_id] raises, it is
    [InvalidCertificateException] for a text that does not parse or
    [CertificateAppIdMismatchException] for a certificate whose CN neither
    is the identifier nor is on the master list; [get_cn] raises only the
    former.  Neither lets an exception of the libraries through. *)
Theorem identity_raises (settings : Settings) (certificate app_id : string)
    (err : error) :
  (get_cn L self certificate = Raise err ->
   exists e, parse_certificate L certificate = inl e
             /\ err = InvalidCertificateException
                        ("Invalid certificate: " ++ exc_str e))
  /\ (validate_app_id L settings self certificate app_id = Raise err ->
      (exists e, parse_certificate L certificate = inl e
                 /\ err = InvalidCertificateException
                            ("Invalid certificate: " ++ exc_str e))
      \/ (exists c, parse_certificate L certificate = inr c
                    /\ ~ id_matches settings (subject_CN L c) app_id
                    /\ err = CertificateAppIdMismatchException
                               ("App id " ++ app_id ++ " does not match cert CN "
                                  ++ format_str (subject_CN L c)))).
Proof.
  unfold validate_app_id, get_cn.
  destruct (parse_certificate L certificate) as [e | c] eqn:Hp.
  - rewrite (_to_cert_Raise L self _ _ Hp). simpl.
    split; intros [= <-]; [| left]; exists e; auto.
  - rewrite (proj2 (_to_cert_Return L self _ _) Hp). simpl.
    split; [discriminate |].
    pose proof (id_matches_dec settings (subject_CN L c) app_id) as Hdec.
    destruct (py_eq (subject_CN L c) app_id); [discriminate |].
    destruct (py_in (subject_CN L c) (master_cns_of settings)); [discriminate |].
    intros [= <-]. right. exists c. split; [reflexivity | split; [| reflexivity]].
    intros Hm. apply Hdec in Hm. discriminate.
Qed.

End Identity.

(** ** Runs of the further properties *)

(** "news" verifies its signature of [b"hello world"]. *)
Lemma validate_signature_outcomes_witness :
  validate_signature Ref.library Ref.validator Ref.news_pem Ref.hello_sig Ref.hello =
    Return tt.
Proof.
  apply (proj1 (validate_signature_outcomes Ref.library Ref.validator
                  Ref.news_pem Ref.hello_sig Ref.hello)).
  exists Ref.news, (Ref.sign (Ref.cert_key Ref.news) Ref.hello).
  repeat split; vm_compute; reflexivity.
Defined.

(** "news" under its root, with no CRL. *)
Lemma validate_certificate_accepts_iff_witness :
  validate_certificate Ref.library Ref.validator Ref.news_pem Ref.root_pem None =
    Return tt.
Proof.
  apply (proj2 (validate_certificate_accepts_iff Ref.library Ref.validator
                  Ref.news_pem Ref.root_pem None)).
  exists (list_byte_of_string Ref.root_pem), [Ref.root_pem], [Ref.root_ca],
    Ref.news, [], [].
  repeat split; try (vm_compute; reflexivity).
  constructor; [vm_compute; reflexivity | constructor].
Defined.

(** The text that is no CRL: the exception that comes out is the one of
    [load_crl]. *)
Lemma validate_certificate_raises_witness :
  validate_certificate Ref.library Ref.validator Ref.news_pem Ref.root_pem
    (Some "not a crl") =
  Raise (Unhandled (Ref.crypto_error "[('PEM routines', '', 'no start line')]"))
  /\ exists e,
       (str_encode Ref.library Ref.root_pem = inl e
        \/ (exists cb, str_encode Ref.library Ref.root_pem = inr cb
                       /\ pem_parse Ref.library cb = inl e)
        \/ (exists t, if_truthy (Some "not a crl") = Some t
                      /\ load_crl Ref.library FILETYPE_PEM t = inl e)).
Proof.
  assert (H : validate_certificate Ref.library Ref.validator Ref.news_pem Ref.root_pem
                (Some "not a crl") =
              Raise (Unhandled
                       (Ref.crypto_error "[('PEM routines', '', 'no start line')]")))
    by (vm_compute; reflexivity).
  split; [exact H |].
  destruct (validate_certificate_raises Ref.library Ref.validator _ _ _ _ H)
    as [[e [_ Hsrc]] | [[e [Habs _]] | [e [ctx [Habs _]]]]].
  - exists e. exact Hsrc.
  - discriminate Habs.
  - discriminate Habs.
Defined.

(** A chain whose second block is no certificate: the answer is about that
    block, with a leaf that is no certificate and a CRL that is no CRL. *)
Lemma first_bad_anchor_wins_witness :
  validate_certificate Ref.library Ref.validator "no certificate"
    (Ref.root_pem ++ Ref.pem_of "MIIBgarbage" ++ Ref.core_pem) (Some "not a crl") =
  Raise (InvalidCertificateException
           "Invalid certificate: [('asn1 encoding routines', '', 'not enough data')]").
Proof.
  apply (first_bad_anchor_wins Ref.library Ref.validator "no certificate"
           (Ref.root_pem ++ Ref.pem_of "MIIBgarbage" ++ Ref.core_pem) (Some "not a crl")
           (list_byte_of_string (Ref.root_pem ++ Ref.pem_of "MIIBgarbage" ++ Ref.core_pem))
           [Ref.root_pem] [Ref.core_pem] (Ref.pem_of "MIIBgarbage") [Ref.root_ca]
           (Ref.crypto_error "[('asn1 encoding routines', '', 'not enough data')]")).
  - vm_compute; reflexivity.
  - vm_compute; reflexivity.
  - constructor; [vm_compute; reflexivity | constructor].
  - vm_compute; reflexivity.
Defined.

(** "news" is accepted as "news" where nobody is master. *)
Lemma own_cn_accepted_witness :
  validate_app_id Ref.library Ref.bare_settings Ref.validator Ref.news_pem "news" =
    Return tt.
Proof.
  apply (own_cn_accepted Ref.library Ref.validator Ref.bare_settings Ref.news_pem "news").
  vm_compute; reflexivity.
Defined.


(** Without a master list "core" is accepted as "core" only. *)
Lemma missing_master_list_witness :
  validate_app_id Ref.library Ref.bare_settings Ref.validator Ref.core_pem "core" =
    Return tt
  /\ validate_app_id Ref.library Ref.bare_settings Ref.validator Ref.core_pem "news" <>
       Return tt.
Proof.
  pose proof (missing_master_list Ref.library Ref.validator Ref.bare_settings
                Ref.core_pem "core" eq_refl) as Hcore.
  pose proof (missing_master_list Ref.library Ref.validator Ref.bare_settings
                Ref.core_pem "news" eq_refl) as Hnews.
  split.
  - apply Hcore. exists Ref.core. split; vm_compute; reflexivity.
  - intros Hok. apply Hnews in Hok as [c [Hc Hcn]].
    vm_compute in Hc. injection Hc as <-. discriminate Hcn.
Defined.

(** "core" is master on the list of one name and stays so on a longer
    list. *)
Lemma master_list_as_set_witness :
  validate_app_id Ref.library (mkSettings "sha512" (Some ["files"; "core"]))
    Ref.validator Ref.core_pem "news" = Return tt.
Proof.
  apply (proj1 (master_list_as_set Ref.library Ref.validator Ref.settings
                  (mkSettings "sha512" (Some ["files"; "core"]))
                  Ref.core_pem "news"
                  (fun x H => or_intror H))).
  vm_compute; reflexivity.
Defined.

(** The expired "news" and the current one are told the same. *)
Lemma validate_app_id_reads_cn_only_witness :
  validate_app_id Ref.library Ref.settings Ref.validator Ref.news_old_pem "News" =
    validate_app_id Ref.library Ref.settings Ref.validator Ref.news_pem "News".
Proof.
  apply (validate_app_id_reads_cn_only Ref.library Ref.validator Ref.settings
           Ref.news_old_pem Ref.news_pem "News" Ref.news_old Ref.news);
    vm_compute; reflexivity.
Defined.

(** "news" as "News": the mismatch, and nothing else. *)
Lemma identity_raises_witness :
  exists c,
    parse_certificate Ref.library Ref.news_pem = inr c
    /\ ~ id_matches Ref.settings (subject_CN Ref.library c) "News".
Proof.
  assert (H : validate_app_id Ref.library Ref.settings Ref.validator Ref.news_pem "News" =
              Raise (CertificateAppIdMismatchException
                       "App id News does not match cert CN news"))
    by (vm_compute; reflexivity).
  destruct (proj2 (identity_raises Ref.library Ref.validator Ref.settings
                     Ref.news_pem "News" _) H)
    as [[e [_ Habs]] | [c [Hc [Hn _]]]].
  - discriminate Habs.
  - exists c. auto.
Defined.
